(** * hsluv-cython: the [Macro] / [Macros] utility of [setup.py]

    A shallow embedding of the preprocessor-macro helper classes of the
    build script, together with the few pieces of the Python runtime they
    lean on ([int(s, base=10)], [str.strip], [str.lstrip], [str.join],
    UTF-8 coding), and the properties the specification states about them.

    Conventions.
    - A Python [str] is a Rocq [string]; a character stands for the code
      point of the same number, so the model covers the code points below
      256.  A [bytes] object is a [list byte].
    - [None] in a [MaybeStr] position is [None : option string].
    - A call that may raise returns a [result]; the [dict] that [Macros]
      inherits from is an association list in insertion order. *)

From Stdlib Require Import String Ascii Strings.Byte List ZArith NArith Bool Lia.
From Stdlib Require Import DecimalString.
Import ListNotations.

Local Open Scope string_scope.
Local Open Scope list_scope.

(** ** Exceptions and the error monad *)

Inductive exn : Type :=
| ValueError
| KeyError
| UnicodeDecodeError.

Inductive result (A : Type) : Type :=
| Ok (a : A)
| Raise (e : exn).

Arguments Ok {A} a.
Arguments Raise {A} e.

Definition bind {A B : Type} (r : result A) (k : A -> result B) : result B :=
  match r with
  | Ok a => k a
  | Raise e => Raise e
  end.

Notation "x <- e1 ;; e2" := (bind e1 (fun x => e2))
  (at level 61, e1 at next level, right associativity).

Fixpoint mapM {A B : Type} (f : A -> result B) (l : list A) : result (list B) :=
  match l with
  | [] => Ok []
  | a :: l' => b <- f a ;; bs <- mapM f l' ;; Ok (b :: bs)
  end.

(** ** The Python runtime, as far as the script uses it *)

Module Py.

(** Code point of a character. *)
Definition ord (c : ascii) : N := N_of_ascii c.

(** Truthiness of a [str]: every string but the empty one. *)
Definition truthy (s : string) : bool :=
  match s with
  | EmptyString => false
  | String _ _ => true
  end.

(** [Py_ISSPACE]: the C-locale blanks that [PyLong_FromString] skips. *)
Definition Py_ISSPACE (c : ascii) : bool :=
  let n := ord c in
  ((9 <=? n) && (n <=? 13) || (n =? 32))%N.

(** [Py_UNICODE_ISSPACE] on the code points below 256; this is also the
    class that [str.strip] and [str.lstrip] remove. *)
Definition Py_UNICODE_ISSPACE (c : ascii) : bool :=
  let n := ord c in
  ((9 <=? n) && (n <=? 13) || (28 <=? n) && (n <=? 31)
   || (n =? 32) || (n =? 133) || (n =? 160))%N.

(** [Py_UNICODE_TODECIMAL] on the code points below 256: only the ASCII
    digits have a decimal value there. *)
Definition Py_UNICODE_TODECIMAL (c : ascii) : option N :=
  let n := ord c in
  if ((48 <=? n) && (n <=? 57))%N then Some (n - 48)%N else None.

(** *** [int(s, base=10)] *)

Definition is_ascii (s : string) : bool :=
  forallb (fun c => (ord c <? 128)%N) (list_ascii_of_string s).

(** The loop of [_PyUnicode_TransformDecimalAndSpaceToASCII]: characters
    below 127 are kept, other blanks become a space, other decimals their
    ASCII digit, and the first character that is neither becomes ['?'] and
    cuts the string. *)
Fixpoint transform_loop (s : string) : string :=
  match s with
  | EmptyString => EmptyString
  | String c r =>
      if (ord c <? 127)%N then String c (transform_loop r)
      else if Py_UNICODE_ISSPACE c then String " " (transform_loop r)
      else match Py_UNICODE_TODECIMAL c with
           | Some d => String (ascii_of_N (48 + d)) (transform_loop r)
           | None => String "?" EmptyString
           end
  end.

Definition TransformDecimalAndSpaceToASCII (s : string) : string :=
  if is_ascii s then s else transform_loop s.

Fixpoint skip_space (s : string) : string :=
  match s with
  | EmptyString => EmptyString
  | String c r => if Py_ISSPACE c then skip_space r else s
  end.

(** [_PyLong_DigitValue] below ten. *)
Definition digit_value (c : ascii) : option Z :=
  let n := ord c in
  if ((48 <=? n) && (n <=? 57))%N then Some (Z.of_N n - 48)%Z else None.

(** The digit scan of [PyLong_FromString]: digits with single underscores
    between them.  [prev_us] tells that the previous character was an
    underscore; a doubled or a trailing underscore is an error ([None]).
    On success: the value, the number of digits, the unread rest. *)
Fixpoint scan_digits (prev_us : bool) (acc : Z) (digits : nat) (s : string)
  : option (Z * nat * string) :=
  match s with
  | EmptyString => if prev_us then None else Some (acc, digits, s)
  | String c r =>
      if Ascii.eqb c "_" then
        if prev_us then None else scan_digits true acc digits r
      else
        match digit_value c with
        | Some d => scan_digits false (10 * acc + d)%Z (S digits) r
        | None => if prev_us then None else Some (acc, digits, s)
        end
  end.

(** [PyLong_FromString(s, &end, 10)] followed by the test that the whole
    buffer was read: blanks, an optional sign, no leading underscore, at
    least one digit, blanks, end of string.  [None] is the [ValueError]
    "invalid literal for int() with base 10". *)
Definition PyLong_FromString (s : string) : option Z :=
  let s1 := skip_space s in
  let '(sign, s2) :=
    match s1 with
    | String "+" r => (1%Z, r)
    | String "-" r => ((-1)%Z, r)
    | _ => (1%Z, s1)
    end in
  match s2 with
  | String "_" _ => None
  | _ =>
      match scan_digits false 0 0 s2 with
      | None => None
      | Some (z, digits, rest) =>
          match digits with
          | O => None
          | S _ =>
              match skip_space rest with
              | EmptyString => Some (sign * z)%Z
              | String _ _ => None
              end
          end
      end
  end.

(** [int(s, base=10)] for a [str] argument; [None] is [ValueError].  The
    interpreter's optional cap on the number of digits is not modelled:
    every statement below about arbitrary strings goes through
    [Macro.is_string_value] only, whatever this function answers. *)
Definition int (s : string) : option Z :=
  PyLong_FromString (TransformDecimalAndSpaceToASCII s).

(** *** [str.lstrip], [str.strip], [str.join] *)

Fixpoint lstrip (s : string) : string :=
  match s with
  | EmptyString => EmptyString
  | String c r => if Py_UNICODE_ISSPACE c then lstrip r else s
  end.

Fixpoint rstrip (s : string) : string :=
  match s with
  | EmptyString => EmptyString
  | String c r =>
      match rstrip r with
      | EmptyString =>
          if Py_UNICODE_ISSPACE c then EmptyString else String c EmptyString
      | String _ _ as r' => String c r'
      end
  end.

Definition strip (s : string) : string := rstrip (lstrip s).

Fixpoint join (sep : string) (items : list string) : string :=
  match items with
  | [] => EmptyString
  | [x] => x
  | x :: rest => (x ++ sep ++ join sep rest)%string
  end.

(** *** UTF-8, for the code points of the model *)

Definition byte_of_N (n : N) : byte :=
  match Byte.of_N n with
  | Some b => b
  | None => x00
  end.

Definition encode_char (c : ascii) : list byte :=
  let n := ord c in
  if (n <? 128)%N then [byte_of_N n]
  else [byte_of_N (192 + n / 64); byte_of_N (128 + n mod 64)].

(** [bytes(s, encoding='UTF-8')] *)
Fixpoint encode (s : string) : list byte :=
  match s with
  | EmptyString => []
  | String c r => encode_char c ++ encode r
  end.

(** [b.decode('UTF-8')], strict.  A sequence that is not well formed, or
    that codes a point outside the model, raises. *)
Fixpoint decode (bs : list byte) : result string :=
  match bs with
  | [] => Ok EmptyString
  | b :: r =>
      let n := Byte.to_N b in
      if (n <? 128)%N then
        s <- decode r ;; Ok (String (ascii_of_N n) s)
      else
        match r with
        | [] => Raise UnicodeDecodeError
        | b2 :: r' =>
            let n2 := Byte.to_N b2 in
            if ((194 <=? n) && (n <=? 195) && (128 <=? n2) && (n2 <? 192))%N
            then s <- decode r' ;;
                 Ok (String (ascii_of_N ((n - 192) * 64 + (n2 - 128))) s)
            else Raise UnicodeDecodeError
        end
  end.

End Py.

(** ** String coercion helpers of the script *)

Definition UTF8_ENCODING : string := "UTF-8".

(** The module-level separator that [Macros.to_string] reads. *)
Definition TOKEN : string := " -".

(** [u8encode(source)]: [bytes(source, encoding=UTF8_ENCODING)]. *)
Definition u8encode (source : string) : list byte := Py.encode source.

(** [u8bytes(source)] for a source of type [str]: the second test of the
    chain, [type(source) is str], is the one that fires. *)
Definition u8bytes (source : string) : list byte := u8encode source.

(** [u8str(source)] for a source of type [str]:
    [type(source) is str and source or u8bytes(source).decode(...)].  The
    [and] yields [source]; the [or] keeps it when it is truthy and falls
    through to the re-coding when it is the empty string. *)
Definition u8str (source : string) : result string :=
  if Py.truthy source then Ok source else Py.decode (u8bytes source).

(** ** class Macro *)

Definition MaybeStr : Type := option string.
Definition MacroTuple : Type := (string * string)%type.

Module Macro.

(** The three slots of an instance. *)
Record t : Type := Build {
  name : string;
  definition : MaybeStr;
  undefine : bool
}.

Definition STRING_ZERO : string := "0".
Definition STRING_ONE : string := "1".

(** [is_string_value(putative, value=0)].  [None] fails [is_string]; a
    string that [int] rejects lands in the [except ValueError] branch. *)
Definition is_string_value (putative : MaybeStr) (value : Z) : bool :=
  match putative with
  | None => false
  | Some s =>
      match Py.int s with
      | None => false
      | Some parsed => let intdef := (0 + parsed)%Z in (intdef =? value)%Z
      end
  end.

(** [Macro(name, definition=None, *, undefine=False)].  A [name] of [None]
    is the absent name.  [(not string_something or None) and definition]
    is [definition] when [string_something] is false, and [None] when it
    is true. *)
Definition init (name : MaybeStr) (definition : MaybeStr) (undefine : bool)
  : result t :=
  match name with
  | None => Raise ValueError
  | Some nm =>
      if negb (Py.truthy nm) then Raise ValueError
      else
        let string_zero := is_string_value definition 0 in
        let string_one := is_string_value definition 1 in
        let string_something := string_zero || string_one in
        Ok {| name := nm;
              definition := if negb string_something then definition
                            else None;
              undefine := string_zero || undefine |}
  end.

Definition to_string (self : t) : result string :=
  if undefine self then
    n <- u8str (name self) ;; Ok ("U" ++ n)%string
  else
    match definition self with
    | Some d =>
        n <- u8str (name self) ;;
        v <- u8str d ;;
        Ok ("D" ++ n ++ "=" ++ v)%string
    | None =>
        n <- u8str (name self) ;; Ok ("D" ++ n)%string
    end.

Definition to_tuple (self : t) : result MacroTuple :=
  if undefine self then
    n <- u8str (name self) ;; Ok (n, STRING_ZERO)
  else
    match definition self with
    | Some d =>
        n <- u8str (name self) ;;
        v <- u8str d ;;
        Ok (n, v)
    | None =>
        n <- u8str (name self) ;; Ok (n, STRING_ONE)
    end.

(** [__str__] and [__bytes__] *)
Definition str (self : t) : result string := to_string self.

Definition bytes (self : t) : result (list byte) :=
  s <- to_string self ;; Ok (u8bytes s).

(** [__bool__]: falsey if undefined, truthy if not. *)
Definition bool (self : t) : Datatypes.bool := negb (undefine self).

End Macro.

(** ** class Macros *)

(** Keyword arguments that a method collects in [**kwargs]: those whose
    keyword is not one of the method's own parameters. *)
Definition kwargs : Type := list (string * MaybeStr).

Module Macros.

(** The inherited [dict]: pairs of key and value in insertion order, a
    key occurring once. *)
Definition t : Type := list (string * string).

(** [Macros()] *)
Definition empty : t := [].

(** [name in self] *)
Definition contains (self : t) (key : string) : Datatypes.bool :=
  existsb (fun kv => String.eqb (fst kv) key) self.

(** [self[name]] *)
Fixpoint getitem (self : t) (key : string) : result string :=
  match self with
  | [] => Raise KeyError
  | (k, v) :: rest => if String.eqb k key then Ok v else getitem rest key
  end.

(** [self[name] = value]: a key that is present keeps its place, a new
    key goes to the end. *)
Fixpoint setitem (self : t) (key : string) (value : string) : t :=
  match self with
  | [] => [(key, value)]
  | (k, v) :: rest =>
      if String.eqb k key then (k, value) :: rest
      else (k, v) :: setitem rest key value
  end.

(** [del self[name]] *)
Fixpoint delitem (self : t) (key : string) : t :=
  match self with
  | [] => []
  | (k, v) :: rest =>
      if String.eqb k key then rest else (k, v) :: delitem rest key
  end.

(** [self.items()] *)
Definition items (self : t) : list (string * string) := self.

(** [macro.definition or Macro.STRING_ONE] *)
Definition definition_or (d : MaybeStr) (default : string) : string :=
  match d with
  | Some s => if Py.truthy s then s else default
  | None => default
  end.

Definition add (self : t) (macro : Macro.t) : t * Macro.t :=
  let name := Macro.name macro in
  if Macro.bool macro then
    (setitem self name (definition_or (Macro.definition macro)
                                      Macro.STRING_ONE), macro)
  else
    (setitem self name Macro.STRING_ZERO, macro).

Definition define (self : t) (name : string) (definition : MaybeStr)
                  (undefine : Datatypes.bool) : result (t * Macro.t) :=
  macro <- Macro.init (Some name) definition undefine ;;
  Ok (add self macro).

Definition undefine (self : t) (name : string) (kw : kwargs)
  : result (t * Macro.t) :=
  macro <- Macro.init (Some name) None true ;;
  Ok (add self macro).

Definition delete (self : t) (name : string) (kw : kwargs)
  : t * Datatypes.bool :=
  if contains self name then (delitem self name, true)
  else (self, false).

Definition definition_for (self : t) (name : string) : result Macro.t :=
  if negb (contains self name) then Macro.init (Some name) None true
  else
    v <- getitem self name ;;
    Macro.init (Some name) (Some v) false.

Definition to_list (self : t) : result (list MacroTuple) :=
  mapM (fun kv => macro <- Macro.init (Some (fst kv)) (Some (snd kv)) false ;;
                  Macro.to_tuple macro)
       (items self).

Definition to_tuple (self : t) : result (list MacroTuple) := to_list self.

(** [to_string] with the value of the global [TOKEN] made explicit. *)
Definition to_string_with (token : string) (self : t) : result string :=
  parts <- mapM (fun kv =>
                   macro <- Macro.init (Some (fst kv)) (Some (snd kv)) false ;;
                   Macro.to_string macro)
                (items self) ;;
  let stringified := Py.strip (Py.join token parts) in
  Ok (Py.lstrip token ++ stringified)%string.

(** [to_string] as the script runs it, [TOKEN] never being reassigned. *)
Definition to_string (self : t) : result string :=
  to_string_with TOKEN self.

Definition str (self : t) : result string := to_string self.

Definition bytes (self : t) : result (list byte) :=
  s <- to_string self ;; Ok (u8bytes s).

End Macros.

(** ** Sequences of operations on a collection *)

(** The scenario of the specification:
    [m = Macros(); m.define('NDEBUG'); m.define('VERSION', '1.2.3');
     m.undefine('DEBUG')]. *)
Definition scenario : result Macros.t :=
  r1 <- Macros.define Macros.empty "NDEBUG" None false ;;
  r2 <- Macros.define (fst r1) "VERSION" (Some "1.2.3") false ;;
  r3 <- Macros.undefine (fst r2) "DEBUG" [] ;;
  Ok (fst r3).

(** One call on a collection.  [Add] stands for
    [m.add(Macro(name, definition, undefine=undefine))]: the instances that
    reach [add] come out of the constructor, the class having no setter. *)
Inductive op : Type :=
| Define (name : string) (definition : MaybeStr) (undefine : bool)
| Undefine (name : string) (kw : kwargs)
| Add (name : MaybeStr) (definition : MaybeStr) (undefine : bool)
| Delete (name : string) (kw : kwargs).

(** The collection after one call; a call that raises leaves it as it was. *)
Definition exec (self : Macros.t) (o : op) : Macros.t :=
  match o with
  | Define name definition undefine =>
      match Macros.define self name definition undefine with
      | Ok (self', _) => self'
      | Raise _ => self
      end
  | Undefine name kw =>
      match Macros.undefine self name kw with
      | Ok (self', _) => self'
      | Raise _ => self
      end
  | Add name definition undefine =>
      match Macro.init name definition undefine with
      | Ok macro => fst (Macros.add self macro)
      | Raise _ => self
      end
  | Delete name kw => fst (Macros.delete self name kw)
  end.

Definition run (ops : list op) (self : Macros.t) : Macros.t :=
  fold_left exec ops self.

(** What the mapping is meant to hold: a non-empty string that is ["0"],
    ["1"], or a definition that is neither sentinel. *)
Definition stored_value_ok (v : string) : Prop :=
  v <> "" /\
  (v = "0" \/ v = "1" \/
   (Macro.is_string_value (Some v) 0 = false /\
    Macro.is_string_value (Some v) 1 = false)).

(** [self.keys()] *)
Definition keys (self : Macros.t) : list string := map fst self.

(** ** The helpers on arbitrary arguments *)

Module Dyn.

(** The values that reach the [tx.Any] parameters of the helpers, as far as
    the helpers tell them apart.  Floats and objects of other classes are
    left out. *)
Inductive value : Type :=
| PyNone
| PyBool (b : bool)
| PyInt (z : Z)
| PyStr (s : string)
| PyBytes (bs : list byte).

(** [item is not None] *)
Definition is_not_None (item : value) : bool :=
  match item with
  | PyNone => false
  | _ => true
  end.

(** [tuplize]: [tuple(item for item in items if item is not None)] *)
Definition tuplize (items : list value) : list value :=
  filter is_not_None items.

(** [listify]: [list(item for item in items if item is not None)] *)
Definition listify (items : list value) : list value :=
  filter is_not_None items.

(** [str(z)] for an [int]: the decimal digits, a minus sign in front of a
    negative number. *)
Definition str_of_int (z : Z) : string :=
  NilZero.string_of_int (Z.to_int z).

(** [u8bytes(source)].  The tests of the chain in their order: [bytes],
    [str], [string_types] (no further class), [(int, float)], which also
    takes the [bool]s, [bool] being a subclass of [int], so that the [bool]
    branch after it is never reached, then [None], whose result is the
    literal [b'None']. *)
Definition u8bytes (source : value) : list byte :=
  match source with
  | PyBytes bs => bs
  | PyStr s => u8encode s
  | PyInt z => u8encode (str_of_int z)
  | PyBool b => u8encode (if b then "True" else "False")
  | PyNone => [x4e; x6f; x6e; x65]
  end.

(** [u8str(source)]:
    [type(source) is str and source or u8bytes(source).decode(...)]. *)
Definition u8str (source : value) : result string :=
  match source with
  | PyStr s => if Py.truthy s then Ok s else Py.decode (u8bytes source)
  | _ => Py.decode (u8bytes source)
  end.

End Dyn.

(** ** The collection the script builds *)

(** [macros = Macros()] and the five [macros.define(...)] calls of the
    script.  [__version__] is assigned by a file that the script executes;
    it is a parameter here. *)
Definition script_macros (version : string) : result Macros.t :=
  r1 <- Macros.define Macros.empty "NDEBUG" None false ;;
  r2 <- Macros.define (fst r1) "NUMPY" None false ;;
  r3 <- Macros.define (fst r2) "VERSION" (Some version) false ;;
  r4 <- Macros.define (fst r3) "NPY_NO_DEPRECATED_API"
                      (Some "NPY_1_7_API_VERSION") false ;;
  r5 <- Macros.define (fst r4) "PY_ARRAY_UNIQUE_SYMBOL"
                      (Some "YO_DOGG_I_HEARD_YOU_LIKE_UNIQUE_SYMBOLS") false ;;
  Ok (fst r5).

(** [define_macros=macros.to_list()], the argument of [Extension]. *)
Definition define_macros (version : string) : result (list MacroTuple) :=
  macros <- script_macros version ;;
  Macros.to_list macros.

(** ** Vocabulary of the statements *)

(** The value that [add] stores for [Macro(name, definition,
    undefine=undefine)], read off the constructor and [add]. *)
Definition stored_value (definition : MaybeStr) (undefine : bool) : string :=
  if Macro.is_string_value definition 0 || undefine then "0"
  else if Macro.is_string_value definition 1 then "1"
  else Macros.definition_or definition "1".

(** The switch that a stored pair renders to. *)
Definition switch (kv : string * string) : string :=
  if String.eqb (snd kv) "0" then ("U" ++ fst kv)%string
  else if String.eqb (snd kv) "1" then ("D" ++ fst kv)%string
  else ("D" ++ fst kv ++ "=" ++ snd kv)%string.

(** A pair as the operations leave it in the mapping. *)
Definition entry_ok (kv : string * string) : Prop :=
  fst kv <> "" /\ stored_value_ok (snd kv).

(** * Properties *)

(** ** The runtime model on sample literals *)

Example int_samples :
  map Py.int ["0"; "1"; "00"; "01"; " 1"; "+1"; "-0"; "0_0";
              "_0"; "0_"; "0__0"; "- 1"; ""; "+"; "1.2.3"; "12"]
  = [Some 0; Some 1; Some 0; Some 1; Some 1; Some 1; Some 0; Some 0;
     None; None; None; None; None; None; None; Some 12]%Z.
Proof. vm_compute. reflexivity. Qed.

Example strip_samples :
  Py.lstrip TOKEN = "-" /\ Py.strip "  DA -DB=1 " = "DA -DB=1" /\
  Py.join TOKEN ["DA"; "DB=1"] = "DA -DB=1".
Proof. repeat split. Qed.

(** ** Helper lemmas *)

(** The constructor and the sentinel test are rewritten with their lemmas,
    not unfolded. *)
Arguments Macro.init : simpl never.
Arguments Macro.is_string_value : simpl never.

Section Helpers.

Lemma append_empty_r (s : string) : (s ++ "")%string = s.
Proof. induction s as [|c s IH]; simpl; [reflexivity | now rewrite IH]. Qed.

Lemma truthy_nonempty (s : string) : s <> "" -> Py.truthy s = true.
Proof. destruct s; [congruence | reflexivity]. Qed.

Lemma truthy_true_nonempty (s : string) : Py.truthy s = true -> s <> "".
Proof. destruct s; simpl; congruence. Qed.

(** On a [str], [u8str] is the identity and never raises. *)
Lemma u8str_id (s : string) : u8str s = Ok s.
Proof. destruct s; reflexivity. Qed.

(** The sentinels, and the two definitions that are no string value. *)
Lemma isv_zero_0 : Macro.is_string_value (Some "0") 0 = true.
Proof. reflexivity. Qed.

Lemma isv_zero_1 : Macro.is_string_value (Some "0") 1 = false.
Proof. reflexivity. Qed.

Lemma isv_one_0 : Macro.is_string_value (Some "1") 0 = false.
Proof. reflexivity. Qed.

Lemma isv_one_1 : Macro.is_string_value (Some "1") 1 = true.
Proof. reflexivity. Qed.

Lemma isv_empty (value : Z) : Macro.is_string_value (Some "") value = false.
Proof. reflexivity. Qed.

Lemma isv_None (value : Z) : Macro.is_string_value None value = false.
Proof. reflexivity. Qed.

(** The constructor on a non-empty name. *)
Lemma init_nonempty (nm : string) (d : MaybeStr) (u : bool) :
  nm <> "" ->
  Macro.init (Some nm) d u =
  Ok (Macro.Build nm
        (if negb (Macro.is_string_value d 0 || Macro.is_string_value d 1)
         then d else None)
        (Macro.is_string_value d 0 || u)).
Proof. destruct nm; [congruence | reflexivity]. Qed.

(** Whatever the constructor returns has a non-empty name and a
    definition that is no sentinel. *)
Lemma init_inv (n d : MaybeStr) (u : bool) (m : Macro.t) :
  Macro.init n d u = Ok m ->
  Macro.name m <> "" /\
  (Macro.undefine m = false -> Macro.is_string_value d 0 = false) /\
  match Macro.definition m with
  | Some s => Macro.is_string_value (Some s) 0 = false /\
              Macro.is_string_value (Some s) 1 = false
  | None => True
  end.
Proof.
  destruct n as [nm|]; [|discriminate].
  destruct nm as [|c nm]; [discriminate|].
  rewrite init_nonempty by discriminate.
  intros H; injection H as <-; simpl.
  split; [discriminate|].
  split; [intros Hu; apply orb_false_iff in Hu; tauto|].
  destruct (Macro.is_string_value d 0) eqn:E0;
    destruct (Macro.is_string_value d 1) eqn:E1; simpl; trivial.
  destruct d; [split; assumption | trivial].
Qed.

Lemma to_tuple_eq (m : Macro.t) :
  Macro.to_tuple m =
  Ok (Macro.name m,
      if Macro.undefine m then "0"
      else match Macro.definition m with Some d => d | None => "1" end).
Proof.
  unfold Macro.to_tuple.
  destruct (Macro.undefine m); [now rewrite u8str_id|].
  destruct (Macro.definition m); now rewrite !u8str_id.
Qed.

Lemma to_string_eq (m : Macro.t) :
  Macro.to_string m =
  Ok (if Macro.undefine m then "U" ++ Macro.name m
      else match Macro.definition m with
           | Some d => "D" ++ Macro.name m ++ "=" ++ d
           | None => "D" ++ Macro.name m
           end)%string.
Proof.
  unfold Macro.to_string.
  destruct (Macro.undefine m); [now rewrite u8str_id|].
  destruct (Macro.definition m); now rewrite !u8str_id.
Qed.

(** [add] never fails and stores a value of the intended shape when the
    instance comes out of the constructor. *)
Lemma definition_or_nonempty (d : MaybeStr) :
  Macros.definition_or d "1" <> "".
Proof.
  destruct d as [s|]; simpl; [|discriminate].
  destruct s; simpl; discriminate.
Qed.

Lemma Forall_setitem (P : string * string -> Prop) (self : Macros.t)
      (k v : string) :
  Forall P self -> (forall k', P (k', v)) ->
  Forall P (Macros.setitem self k v).
Proof.
  intros Hall Hv.
  induction Hall as [|[k0 v0] rest Hhd Htl IH]; simpl.
  - constructor; [apply Hv | constructor].
  - destruct (String.eqb k0 k); constructor; auto.
Qed.

Lemma Forall_delitem (P : string * string -> Prop) (self : Macros.t)
      (k : string) :
  Forall P self -> Forall P (Macros.delitem self k).
Proof.
  intros Hall.
  induction Hall as [|[k0 v0] rest Hhd Htl IH]; simpl.
  - constructor.
  - destruct (String.eqb k0 k); [assumption | constructor; auto].
Qed.

Lemma add_stored_ok (self : Macros.t) (n d : MaybeStr) (u : bool)
      (m : Macro.t) :
  Macro.init n d u = Ok m ->
  Forall (fun kv => stored_value_ok (snd kv)) self ->
  Forall (fun kv => stored_value_ok (snd kv)) (fst (Macros.add self m)).
Proof.
  intros Hinit Hall.
  destruct (init_inv _ _ _ _ Hinit) as (_ & _ & Hdef).
  unfold Macros.add, Macro.bool.
  destruct (Macro.undefine m); simpl.
  - apply Forall_setitem; [assumption|].
    intros k'; split; [discriminate | now left].
  - apply Forall_setitem; [assumption|].
    intros k'; simpl. split; [apply definition_or_nonempty|].
    destruct (Macro.definition m) as [s|]; simpl; [|now right; left].
    destruct s; simpl; [now right; left | right; right; exact Hdef].
Qed.

Lemma exec_stored_ok (self : Macros.t) (o : op) :
  Forall (fun kv => stored_value_ok (snd kv)) self ->
  Forall (fun kv => stored_value_ok (snd kv)) (exec self o).
Proof.
  intros Hall.
  destruct o as [name d u | name kw | name d u | name kw]; simpl.
  - unfold Macros.define.
    destruct (Macro.init (Some name) d u) as [m|e] eqn:E; simpl;
      [|assumption].
    pose proof (add_stored_ok self _ _ _ m E Hall) as Hadd.
    destruct (Macros.add self m) as [self' m']; exact Hadd.
  - unfold Macros.undefine.
    destruct (Macro.init (Some name) None true) as [m|e] eqn:E; simpl;
      [|assumption].
    pose proof (add_stored_ok self _ _ _ m E Hall) as Hadd.
    destruct (Macros.add self m) as [self' m']; exact Hadd.
  - destruct (Macro.init name d u) as [m|e] eqn:E; [|assumption].
    eapply add_stored_ok; eassumption.
  - unfold Macros.delete.
    destruct (Macros.contains self name); simpl;
      [apply Forall_delitem|]; assumption.
Qed.

End Helpers.

(** The association list is a [dict]: no operation makes a key occur
    twice. *)
Section UniqueKeys.

Lemma setitem_keys_in (self : Macros.t) (k v k' : string) :
  In k' (keys (Macros.setitem self k v)) -> k' = k \/ In k' (keys self).
Proof.
  induction self as [|[k0 v0] rest IH]; simpl.
  - intros [H|[]]; now left.
  - destruct (String.eqb k0 k) eqn:E; simpl.
    + intros H; now right.
    + intros [H|H]; [right; now left|].
      destruct (IH H) as [H'|H']; [now left | right; now right].
Qed.

Lemma setitem_keys_nodup (self : Macros.t) (k v : string) :
  NoDup (keys self) -> NoDup (keys (Macros.setitem self k v)).
Proof.
  induction self as [|[k0 v0] rest IH]; simpl; intros Hnd.
  - constructor; [intros [] | constructor].
  - inversion Hnd as [|x l Hnotin Hrest]; subst.
    destruct (String.eqb k0 k) eqn:E; simpl.
    + constructor; assumption.
    + constructor; [|apply IH; assumption].
      intros Hin.
      destruct (setitem_keys_in _ _ _ _ Hin) as [->|Hin'];
        [rewrite String.eqb_refl in E; discriminate | contradiction].
Qed.

Lemma delitem_keys_in (self : Macros.t) (k k' : string) :
  In k' (keys (Macros.delitem self k)) -> In k' (keys self).
Proof.
  induction self as [|[k0 v0] rest IH]; simpl; [tauto|].
  destruct (String.eqb k0 k); simpl; [now right|].
  intros [H|H]; [now left | right; auto].
Qed.

Lemma delitem_keys_nodup (self : Macros.t) (k : string) :
  NoDup (keys self) -> NoDup (keys (Macros.delitem self k)).
Proof.
  induction self as [|[k0 v0] rest IH]; simpl; intros Hnd;
    [constructor|].
  inversion Hnd as [|x l Hnotin Hrest]; subst.
  destruct (String.eqb k0 k); simpl; [assumption|].
  constructor; [|apply IH; assumption].
  intros Hin; apply Hnotin; eapply delitem_keys_in; eassumption.
Qed.

Lemma exec_keys_nodup (self : Macros.t) (o : op) :
  NoDup (keys self) -> NoDup (keys (exec self o)).
Proof.
  intros Hnd.
  destruct o as [name d u | name kw | name d u | name kw]; simpl.
  - unfold Macros.define.
    destruct (Macro.init (Some name) d u) as [m|e]; simpl; [|assumption].
    unfold Macros.add.
    destruct (Macro.bool m); simpl; now apply setitem_keys_nodup.
  - unfold Macros.undefine.
    destruct (Macro.init (Some name) None true) as [m|e]; simpl;
      [|assumption].
    unfold Macros.add.
    destruct (Macro.bool m); simpl; now apply setitem_keys_nodup.
  - destruct (Macro.init name d u) as [m|e]; [|assumption].
    unfold Macros.add.
    destruct (Macro.bool m); simpl; now apply setitem_keys_nodup.
  - unfold Macros.delete.
    destruct (Macros.contains self name); simpl;
      [now apply delitem_keys_nodup | assumption].
Qed.

Lemma run_keys_nodup (ops : list op) :
  NoDup (keys (run ops Macros.empty)).
Proof.
  unfold run.
  assert (H : NoDup (keys Macros.empty)) by constructor.
  revert H. generalize Macros.empty.
  induction ops as [|o ops IH]; intros self Hnd; simpl; [assumption|].
  apply IH, exec_keys_nodup, Hnd.
Qed.

End UniqueKeys.

Lemma run_stored_ok (ops : list op) (self : Macros.t) :
  Forall (fun kv => stored_value_ok (snd kv)) self ->
  Forall (fun kv => stored_value_ok (snd kv)) (run ops self).
Proof.
  revert self.
  induction ops as [|o ops IH]; intros self Hall; simpl; [assumption|].
  apply IH, exec_stored_ok, Hall.
Qed.

Example run_sample :
  run [Define "A" (Some "") false; Define "B" (Some "00") false;
       Add (Some "C") (Some "x y") false; Define "" (Some "v") false;
       Undefine "A" [("definition", Some "7")]; Delete "B" [];
       Add None None false; Define "D" (Some " 1 ") true]
      Macros.empty
  = [("A", "0"); ("C", "x y"); ("D", "0")].
Proof. vm_compute. reflexivity. Qed.

(** ** The claims *)

(** C1 (as the specification states it, refuted): after the scenario,
    [to_list()] is the three pairs in insertion order, but [to_string()] is
    not ["DNDEBUG -DVERSION=1.2.3 -UDEBUG"]: the code puts the stripped
    token in front. *)
Lemma C1_scenario_counterexample :
  ~ ((m <- scenario ;; Macros.to_list m)
       = Ok [("NDEBUG", "1"); ("VERSION", "1.2.3"); ("DEBUG", "0")] /\
     (m <- scenario ;; Macros.to_string m)
       = Ok "DNDEBUG -DVERSION=1.2.3 -UDEBUG").
Proof.
  intros [_ H]. vm_compute in H. discriminate H.
Qed.

(** C1 (amended): after the scenario, [to_list()] returns
    [[('NDEBUG','1'), ('VERSION','1.2.3'), ('DEBUG','0')]] and
    [to_string()] returns ["-DNDEBUG -DVERSION=1.2.3 -UDEBUG"], which is the
    token [" -"] with its leading whitespace stripped, followed by the
    entries' switch forms joined by the token and trimmed. *)
Theorem C1_scenario_rendering :
  (m <- scenario ;; Macros.to_list m)
    = Ok [("NDEBUG", "1"); ("VERSION", "1.2.3"); ("DEBUG", "0")] /\
  (m <- scenario ;; Macros.to_string m)
    = Ok "-DNDEBUG -DVERSION=1.2.3 -UDEBUG" /\
  (m <- scenario ;; Macros.to_string m)
    = Ok (Py.lstrip TOKEN ++
          Py.strip (Py.join TOKEN ["DNDEBUG"; "DVERSION=1.2.3"; "UDEBUG"])
         )%string.
Proof. split; [|split]; vm_compute; reflexivity. Qed.

(** C2 (as the specification states it, refuted): the name ["A"] is not
    empty and ["00"] is neither ["0"] nor ["1"], yet the Macro that
    [Macros().define("A", "00")] returns has the tuple [("A", "0")], not
    [("A", "00")]. *)
Lemma C2_define_roundtrip_counterexample :
  "A" <> "" /\ "00" <> "0" /\ "00" <> "1" /\
  (r <- Macros.define Macros.empty "A" (Some "00") false ;;
   Macro.to_tuple (snd r)) = Ok ("A", "0") /\
  ~ (exists self' macro,
       Macros.define Macros.empty "A" (Some "00") false = Ok (self', macro) /\
       Macro.to_tuple macro = Ok ("A", "00")).
Proof.
  repeat split; try discriminate.
  intros (self' & macro & Hdef & Htup).
  vm_compute in Hdef. injection Hdef as _ <-.
  vm_compute in Htup. discriminate Htup.
Qed.

(** C2 (amended): for every non-empty name and every string X that
    [is_string_value] recognises neither as 0 nor as 1 (X does not parse as
    the base-10 integer 0 or 1), the Macro returned by
    [Macros().define(name, X)] satisfies [to_tuple() == (name, X)]. *)
Theorem C2_define_roundtrip (name X : string) :
  name <> "" ->
  Macro.is_string_value (Some X) 0 = false ->
  Macro.is_string_value (Some X) 1 = false ->
  exists self' macro,
    Macros.define Macros.empty name (Some X) false = Ok (self', macro) /\
    Macro.to_tuple macro = Ok (name, X).
Proof.
  intros Hname H0 H1.
  unfold Macros.define.
  rewrite init_nonempty by assumption.
  rewrite H0, H1; simpl.
  eexists; eexists; split; [reflexivity|].
  now rewrite to_tuple_eq.
Qed.

Lemma C2_define_roundtrip_witness :
  "VERSION" <> "" /\
  Macro.is_string_value (Some "1.2.3") 0 = false /\
  Macro.is_string_value (Some "1.2.3") 1 = false /\
  exists self' macro,
    Macros.define Macros.empty "VERSION" (Some "1.2.3") false
      = Ok (self', macro) /\
    Macro.to_tuple macro = Ok ("VERSION", "1.2.3").
Proof.
  split; [discriminate|].
  split; [reflexivity|].
  split; [reflexivity|].
  apply (C2_define_roundtrip "VERSION" "1.2.3");
    [discriminate | reflexivity | reflexivity].
Defined.

(** C3: for every non-empty name and every value of the [undefine] flag,
    [Macro(name, "0", undefine=flag)] is constructed, and has
    [undefine == True] and [definition is None]. *)
Theorem C3_zero_sentinel (name : string) (flag : bool) :
  name <> "" ->
  exists macro,
    Macro.init (Some name) (Some "0") flag = Ok macro /\
    Macro.name macro = name /\
    Macro.undefine macro = true /\
    Macro.definition macro = None.
Proof.
  intros Hname.
  rewrite init_nonempty by assumption.
  rewrite isv_zero_0, isv_zero_1; simpl.
  eexists; repeat split.
Qed.

Lemma C3_zero_sentinel_witness :
  "DEBUG" <> "" /\
  exists macro,
    Macro.init (Some "DEBUG") (Some "0") false = Ok macro /\
    Macro.name macro = "DEBUG" /\
    Macro.undefine macro = true /\
    Macro.definition macro = None.
Proof.
  split; [discriminate|].
  apply (C3_zero_sentinel "DEBUG" false); discriminate.
Defined.

(** C4: for every non-empty name, [Macro(name, "1")] (default
    [undefine=False]) is constructed, and has [definition is None] and
    [undefine == False]. *)
Theorem C4_one_sentinel (name : string) :
  name <> "" ->
  exists macro,
    Macro.init (Some name) (Some "1") false = Ok macro /\
    Macro.name macro = name /\
    Macro.definition macro = None /\
    Macro.undefine macro = false.
Proof.
  intros Hname.
  rewrite init_nonempty by assumption.
  rewrite isv_one_0, isv_one_1; simpl.
  eexists; repeat split.
Qed.

Lemma C4_one_sentinel_witness :
  "NUMPY" <> "" /\
  exists macro,
    Macro.init (Some "NUMPY") (Some "1") false = Ok macro /\
    Macro.name macro = "NUMPY" /\
    Macro.definition macro = None /\
    Macro.undefine macro = false.
Proof.
  split; [discriminate|].
  apply (C4_one_sentinel "NUMPY"); discriminate.
Defined.

(** C5: for every non-empty name, after [m = Macros(); m.define(name)] the
    Macro that [m.definition_for(name)] returns is the one [Macro(name, "1")]
    constructs, equal to it in name, definition and undefine: the mapping
    holds ["1"] and the constructor normalises it back. *)
Theorem C5_lossy_roundtrip (name : string) :
  name <> "" ->
  exists self' macro found made,
    Macros.define Macros.empty name None false = Ok (self', macro) /\
    Macros.getitem self' name = Ok "1" /\
    Macros.definition_for self' name = Ok found /\
    Macro.init (Some name) (Some "1") false = Ok made /\
    Macro.name found = Macro.name made /\
    Macro.definition found = Macro.definition made /\
    Macro.undefine found = Macro.undefine made.
Proof.
  intros Hname.
  unfold Macros.define.
  rewrite init_nonempty by assumption.
  rewrite !isv_None; simpl.
  exists [(name, "1")], (Macro.Build name None false).
  exists (Macro.Build name None false), (Macro.Build name None false).
  unfold Macros.definition_for, Macros.contains; simpl.
  rewrite String.eqb_refl; simpl.
  rewrite init_nonempty by assumption.
  rewrite isv_one_0, isv_one_1; simpl.
  repeat split.
Qed.

Lemma C5_lossy_roundtrip_witness :
  "NDEBUG" <> "" /\
  exists self' macro found made,
    Macros.define Macros.empty "NDEBUG" None false = Ok (self', macro) /\
    Macros.getitem self' "NDEBUG" = Ok "1" /\
    Macros.definition_for self' "NDEBUG" = Ok found /\
    Macro.init (Some "NDEBUG") (Some "1") false = Ok made /\
    Macro.name found = Macro.name made /\
    Macro.definition found = Macro.definition made /\
    Macro.undefine found = Macro.undefine made.
Proof.
  split; [discriminate|].
  apply (C5_lossy_roundtrip "NDEBUG"); discriminate.
Defined.

(** C6: for every non-empty name, every collection and every keyword
    arguments (a definition value among them or not),
    [undefine(name, **kwargs)] changes the mapping and returns a Macro
    exactly as [define(name, undefine=True)] does: the name is set to ["0"]
    and the Macro is the undefined one without definition. *)
Theorem C6_undefine_is_define (self : Macros.t) (name : string) (kw : kwargs) :
  name <> "" ->
  Macros.undefine self name kw = Macros.define self name None true /\
  Macros.undefine self name kw
    = Ok (Macros.setitem self name "0", Macro.Build name None true).
Proof.
  intros Hname.
  split; [reflexivity|].
  unfold Macros.undefine.
  rewrite init_nonempty by assumption.
  rewrite !isv_None; reflexivity.
Qed.

Lemma C6_undefine_is_define_witness :
  "DEBUG" <> "" /\
  Macros.undefine [("DEBUG", "3")] "DEBUG" [("definition", Some "7")]
    = Macros.define [("DEBUG", "3")] "DEBUG" None true /\
  Macros.undefine [("DEBUG", "3")] "DEBUG" [("definition", Some "7")]
    = Ok (Macros.setitem [("DEBUG", "3")] "DEBUG" "0",
          Macro.Build "DEBUG" None true).
Proof.
  split; [discriminate|].
  apply (C6_undefine_is_define [("DEBUG", "3")] "DEBUG"
                               [("definition", Some "7")]);
    discriminate.
Defined.

(** C7: [Macro("")] and [Macro(None)] raise [ValueError] from the
    constructor, whatever the other two arguments; no Macro is produced. *)
Theorem C7_invalid_name (definition : MaybeStr) (undefine : bool) :
  Macro.init (Some "") definition undefine = Raise ValueError /\
  Macro.init None definition undefine = Raise ValueError.
Proof. split; reflexivity. Qed.

(** C8: on an empty [Macros()], [to_string()] returns the separator token
    with its leading whitespace stripped, whatever the token; with the
    default token [" -"] that is ["-"]. *)
Theorem C8_empty_to_string :
  (forall token : string,
     Macros.to_string_with token Macros.empty = Ok (Py.lstrip token)) /\
  Macros.to_string Macros.empty = Ok "-".
Proof.
  split; [|reflexivity].
  intros token.
  unfold Macros.to_string_with; simpl.
  now rewrite append_empty_r.
Qed.

(** C9: every value stored in a collection built from [Macros()] through
    [define], [undefine], [add] and [delete] alone (definitions being
    strings or [None]) is a non-empty string that is ["0"], ["1"], or a
    definition that does not parse as the base-10 integer 0 or 1. *)
Theorem C9_stored_values (ops : list op) :
  Forall (fun kv => stored_value_ok (snd kv)) (run ops Macros.empty).
Proof. apply run_stored_ok. constructor. Qed.

(** C10: for every non-empty name, [Macros().define(name, "")] stores
    ["1"] for the name, so [to_list()] then returns [[(name, "1")]], while
    the Macro that the call returned has definition [""] and the tuple
    [(name, "")]. *)
Theorem C10_empty_definition (name : string) :
  name <> "" ->
  exists self' macro,
    Macros.define Macros.empty name (Some "") false = Ok (self', macro) /\
    Macros.getitem self' name = Ok "1" /\
    Macros.to_list self' = Ok [(name, "1")] /\
    Macro.definition macro = Some "" /\
    Macro.to_tuple macro = Ok (name, "").
Proof.
  intros Hname.
  unfold Macros.define.
  rewrite init_nonempty by assumption.
  rewrite !isv_empty; simpl.
  exists [(name, "1")], (Macro.Build name (Some "") false).
  split; [reflexivity|].
  split; [simpl; now rewrite String.eqb_refl|].
  split.
  - unfold Macros.to_list; simpl.
    rewrite init_nonempty by assumption.
    rewrite isv_one_0, isv_one_1; simpl.
    now rewrite to_tuple_eq.
  - split; [reflexivity|].
    now rewrite to_tuple_eq.
Qed.

Lemma C10_empty_definition_witness :
  "NUMPY" <> "" /\
  exists self' macro,
    Macros.define Macros.empty "NUMPY" (Some "") false = Ok (self', macro) /\
    Macros.getitem self' "NUMPY" = Ok "1" /\
    Macros.to_list self' = Ok [("NUMPY", "1")] /\
    Macro.definition macro = Some "" /\
    Macro.to_tuple macro = Ok ("NUMPY", "").
Proof.
  split; [discriminate|].
  apply (C10_empty_definition "NUMPY"); discriminate.
Defined.

(** * Further properties of the code *)

Example str_of_int_samples :
  map Dyn.str_of_int [0; 7; 120; -5; -4300]%Z = ["0"; "7"; "120"; "-5"; "-4300"].
Proof. vm_compute. reflexivity. Qed.

(** ** The inherited mapping *)

Section DictLemmas.

Lemma contains_setitem_same (self : Macros.t) (k v : string) :
  Macros.contains (Macros.setitem self k v) k = true.
Proof.
  unfold Macros.contains.
  induction self as [|[k0 v0] rest IH]; simpl.
  - now rewrite String.eqb_refl.
  - destruct (String.eqb k0 k) eqn:E; simpl; rewrite E; simpl;
      [reflexivity | exact IH].
Qed.

Lemma getitem_setitem_same (self : Macros.t) (k v : string) :
  Macros.getitem (Macros.setitem self k v) k = Ok v.
Proof.
  induction self as [|[k0 v0] rest IH]; simpl.
  - now rewrite String.eqb_refl.
  - destruct (String.eqb k0 k) eqn:E; simpl; rewrite E; [reflexivity | exact IH].
Qed.

Lemma getitem_setitem_other (self : Macros.t) (k v k' : string) :
  k' <> k ->
  Macros.getitem (Macros.setitem self k v) k' = Macros.getitem self k'.
Proof.
  intros Hne.
  induction self as [|[k0 v0] rest IH]; simpl.
  - destruct (String.eqb_spec k k'); [congruence | reflexivity].
  - destruct (String.eqb_spec k0 k) as [->|Hk]; simpl.
    + destruct (String.eqb_spec k k'); [congruence | reflexivity].
    + destruct (String.eqb k0 k'); [reflexivity | exact IH].
Qed.

Lemma contains_setitem_other (self : Macros.t) (k v k' : string) :
  k' <> k ->
  Macros.contains (Macros.setitem self k v) k' = Macros.contains self k'.
Proof.
  intros Hne. unfold Macros.contains.
  induction self as [|[k0 v0] rest IH]; simpl.
  - destruct (String.eqb_spec k k'); [congruence | reflexivity].
  - destruct (String.eqb_spec k0 k) as [->|Hk]; simpl.
    + reflexivity.
    + now rewrite IH.
Qed.

Lemma contains_true_getitem (self : Macros.t) (k : string) :
  Macros.contains self k = true ->
  exists v, Macros.getitem self k = Ok v /\ In (k, v) self.
Proof.
  unfold Macros.contains.
  induction self as [|[k0 v0] rest IH]; simpl; [discriminate|].
  destruct (String.eqb_spec k0 k) as [->|Hk]; simpl.
  - intros _. exists v0. split; [reflexivity | now left].
  - intros H. destruct (IH H) as (v & Hget & Hin).
    exists v. split; [exact Hget | now right].
Qed.

Lemma contains_false_getitem (self : Macros.t) (k : string) :
  Macros.contains self k = false -> Macros.getitem self k = Raise KeyError.
Proof.
  unfold Macros.contains.
  induction self as [|[k0 v0] rest IH]; simpl; [reflexivity|].
  destruct (String.eqb k0 k); simpl; [discriminate | exact IH].
Qed.

Lemma contains_in_keys (self : Macros.t) (k : string) :
  Macros.contains self k = true <-> In k (keys self).
Proof.
  unfold Macros.contains, keys.
  induction self as [|[k0 v0] rest IH]; simpl; [split; [discriminate | tauto]|].
  destruct (String.eqb_spec k0 k) as [->|Hk]; simpl.
  - split; [now left | reflexivity].
  - rewrite IH. split; [now right | intros [H|H]; [congruence | exact H]].
Qed.

Lemma setitem_getitem_id (self : Macros.t) (k v : string) :
  Macros.getitem self k = Ok v -> Macros.setitem self k v = self.
Proof.
  induction self as [|[k0 v0] rest IH]; simpl; [discriminate|].
  destruct (String.eqb k0 k).
  - intros H; injection H as ->; reflexivity.
  - intros H; now rewrite IH.
Qed.


Lemma delitem_absent (self : Macros.t) (k : string) :
  Macros.contains self k = false -> Macros.delitem self k = self.
Proof.
  unfold Macros.contains.
  induction self as [|[k0 v0] rest IH]; simpl; [reflexivity|].
  destruct (String.eqb k0 k); simpl; [discriminate|].
  intros H; now rewrite IH.
Qed.

Lemma contains_delitem_same (self : Macros.t) (k : string) :
  NoDup (keys self) -> Macros.contains (Macros.delitem self k) k = false.
Proof.
  intros Hnd.
  induction self as [|[k0 v0] rest IH]; simpl; [reflexivity|].
  simpl in Hnd. inversion Hnd as [|x l Hnotin Hrest]; subst.
  destruct (String.eqb_spec k0 k) as [->|Hk].
  - destruct (Macros.contains rest k) eqn:E; [|reflexivity].
    apply contains_in_keys in E. contradiction.
  - unfold Macros.contains in *; simpl.
    destruct (String.eqb_spec k0 k); [congruence|]. simpl. now apply IH.
Qed.

Lemma getitem_delitem_other (self : Macros.t) (k k' : string) :
  k' <> k ->
  Macros.getitem (Macros.delitem self k) k' = Macros.getitem self k'.
Proof.
  intros Hne.
  induction self as [|[k0 v0] rest IH]; simpl; [reflexivity|].
  destruct (String.eqb_spec k0 k) as [->|Hk]; simpl.
  - destruct (String.eqb_spec k k'); [congruence | reflexivity].
  - destruct (String.eqb k0 k'); [reflexivity | exact IH].
Qed.

Lemma contains_delitem_other (self : Macros.t) (k k' : string) :
  k' <> k ->
  Macros.contains (Macros.delitem self k) k' = Macros.contains self k'.
Proof.
  intros Hne. unfold Macros.contains.
  induction self as [|[k0 v0] rest IH]; simpl; [reflexivity|].
  destruct (String.eqb_spec k0 k) as [->|Hk]; simpl.
  - destruct (String.eqb_spec k k'); [congruence | reflexivity].
  - now rewrite IH.
Qed.

Lemma Forall_setitem_pair (P : string * string -> Prop) (self : Macros.t)
      (k v : string) :
  Forall P self -> P (k, v) -> Forall P (Macros.setitem self k v).
Proof.
  intros Hall Hkv.
  induction Hall as [|[k0 v0] rest Hhd Htl IH]; simpl.
  - constructor; [exact Hkv | constructor].
  - destruct (String.eqb_spec k0 k) as [->|Hk]; constructor; auto.
Qed.

End DictLemmas.

(** ** The constructor and [add], in closed form *)

Section StoreLemmas.

Lemma add_init (self : Macros.t) (nm : string) (d : MaybeStr) (u : bool)
      (macro : Macro.t) :
  Macro.init (Some nm) d u = Ok macro ->
  Macros.add self macro = (Macros.setitem self nm (stored_value d u), macro).
Proof.
  destruct nm as [|c nm]; [discriminate|].
  rewrite init_nonempty by discriminate.
  intros H; injection H as <-.
  unfold Macros.add, Macro.bool, stored_value; simpl.
  destruct (Macro.is_string_value d 0); simpl; [reflexivity|].
  destruct u; simpl; [reflexivity|].
  destruct (Macro.is_string_value d 1); reflexivity.
Qed.

Lemma define_nonempty (self : Macros.t) (nm : string) (d : MaybeStr)
      (u : bool) :
  nm <> "" ->
  Macros.define self nm d u =
  Ok (Macros.setitem self nm (stored_value d u),
      Macro.Build nm
        (if negb (Macro.is_string_value d 0 || Macro.is_string_value d 1)
         then d else None)
        (Macro.is_string_value d 0 || u)).
Proof.
  intros Hnm. unfold Macros.define.
  pose proof (init_nonempty nm d u Hnm) as Hinit.
  rewrite Hinit; simpl.
  now rewrite (add_init self nm d u _ Hinit).
Qed.

Lemma define_empty_name (self : Macros.t) (d : MaybeStr) (u : bool) :
  Macros.define self "" d u = Raise ValueError.
Proof. reflexivity. Qed.

Lemma stored_value_is_ok (d : MaybeStr) (u : bool) :
  stored_value_ok (stored_value d u).
Proof.
  unfold stored_value.
  destruct (Macro.is_string_value d 0) eqn:E0; simpl;
    [split; [discriminate | now left]|].
  destruct u; [split; [discriminate | now left]|].
  destruct (Macro.is_string_value d 1) eqn:E1;
    [split; [discriminate | right; now left]|].
  destruct d as [s|]; simpl; [|split; [discriminate | right; now left]].
  destruct s as [|c s]; simpl; [split; [discriminate | right; now left]|].
  split; [discriminate | right; right; split; assumption].
Qed.

Lemma exec_entry_ok (self : Macros.t) (o : op) :
  Forall entry_ok self -> Forall entry_ok (exec self o).
Proof.
  intros Hall.
  assert (Hset : forall nm d u, nm <> "" ->
            Forall entry_ok (Macros.setitem self nm (stored_value d u))).
  { intros nm d u Hnm. apply Forall_setitem_pair; [exact Hall|].
    split; [exact Hnm | apply stored_value_is_ok]. }
  destruct o as [name d u | name kw | name d u | name kw]; simpl.
  - destruct name as [|c name]; [exact Hall|].
    rewrite define_nonempty by discriminate. apply Hset; discriminate.
  - change (Macros.undefine self name kw)
      with (Macros.define self name None true).
    destruct name as [|c name]; [exact Hall|].
    rewrite define_nonempty by discriminate. apply Hset; discriminate.
  - destruct name as [nm|]; [|exact Hall].
    destruct (Macro.init (Some nm) d u) as [macro|e] eqn:E; [|exact Hall].
    rewrite (add_init self nm d u macro E); simpl.
    apply Hset. intros ->; discriminate E.
  - unfold Macros.delete.
    destruct (Macros.contains self name); simpl;
      [apply Forall_delitem|]; exact Hall.
Qed.

Lemma run_entry_ok (ops : list op) :
  Forall entry_ok (run ops Macros.empty).
Proof.
  unfold run.
  assert (H : Forall entry_ok Macros.empty) by constructor.
  revert H. generalize Macros.empty.
  induction ops as [|o ops IH]; intros self Hall; simpl; [exact Hall|].
  apply IH, exec_entry_ok, Hall.
Qed.

Lemma mapM_ok {A B : Type} (f : A -> result B) (g : A -> B) (l : list A) :
  Forall (fun a => f a = Ok (g a)) l -> mapM f l = Ok (map g l).
Proof.
  induction 1 as [|a l Ha Hl IH]; simpl; [reflexivity|].
  now rewrite Ha, IH.
Qed.

Lemma not_sentinel_neq (v : string) :
  Macro.is_string_value (Some v) 0 = false ->
  Macro.is_string_value (Some v) 1 = false ->
  v <> "0" /\ v <> "1".
Proof.
  intros H0 H1; split; intros ->;
    [rewrite isv_zero_0 in H0 | rewrite isv_one_1 in H1]; discriminate.
Qed.

(** A stored pair read back through the constructor. *)
Lemma entry_init (k v : string) :
  entry_ok (k, v) ->
  Macro.init (Some k) (Some v) false =
  Ok (Macro.Build k
        (if String.eqb v "0" || String.eqb v "1" then None else Some v)
        (String.eqb v "0")).
Proof.
  intros [Hk [Hv Hshape]]; simpl in *.
  rewrite init_nonempty by exact Hk.
  destruct Hshape as [->| [->| [H0 H1]]].
  - rewrite isv_zero_0, isv_zero_1; reflexivity.
  - rewrite isv_one_0, isv_one_1; reflexivity.
  - destruct (not_sentinel_neq v H0 H1) as [N0 N1].
    rewrite H0, H1; simpl.
    apply String.eqb_neq in N0, N1. now rewrite N0, N1.
Qed.

Lemma entry_tuple (kv : string * string) :
  entry_ok kv ->
  (macro <- Macro.init (Some (fst kv)) (Some (snd kv)) false ;;
   Macro.to_tuple macro) = Ok kv.
Proof.
  destruct kv as [k v]; intros Hok; simpl.
  rewrite (entry_init k v Hok); simpl.
  rewrite to_tuple_eq; simpl.
  destruct (String.eqb_spec v "0") as [->|N0]; simpl; [reflexivity|].
  destruct (String.eqb_spec v "1") as [->|N1]; reflexivity.
Qed.

Lemma entry_switch (kv : string * string) :
  entry_ok kv ->
  (macro <- Macro.init (Some (fst kv)) (Some (snd kv)) false ;;
   Macro.to_string macro) = Ok (switch kv).
Proof.
  destruct kv as [k v]; intros Hok; simpl.
  rewrite (entry_init k v Hok); simpl.
  rewrite to_string_eq; unfold switch; simpl.
  destruct (String.eqb v "0"); simpl; [reflexivity|].
  destruct (String.eqb v "1"); reflexivity.
Qed.

Lemma to_list_entries (self : Macros.t) :
  Forall entry_ok self -> Macros.to_list self = Ok self.
Proof.
  intros Hall. unfold Macros.to_list, Macros.items.
  rewrite (mapM_ok _ (fun kv => kv)); [now rewrite map_id|].
  eapply Forall_impl; [|exact Hall].
  intros kv Hok; now apply entry_tuple.
Qed.

Lemma to_string_entries (token : string) (self : Macros.t) :
  Forall entry_ok self ->
  Macros.to_string_with token self =
  Ok (Py.lstrip token ++ Py.strip (Py.join token (map switch self)))%string.
Proof.
  intros Hall. unfold Macros.to_string_with, Macros.items.
  rewrite (mapM_ok _ switch); [reflexivity|].
  eapply Forall_impl; [|exact Hall].
  intros kv Hok; now apply entry_switch.
Qed.

End StoreLemmas.

(** ** UTF-8 coding *)

Section Codec.



End Codec.

Lemma stored_value_fix (v : string) :
  stored_value_ok v -> stored_value (Some v) false = v.
Proof.
  intros [Hv [->| [->| [H0 H1]]]]; [reflexivity | reflexivity |].
  unfold stored_value. rewrite H0, H1; simpl.
  destruct v; [congruence | reflexivity].
Qed.

(** ** class Macro *)

(** X1: for every non-empty name and every definition,
    [Macro(name, definition, undefine=True)] is falsey and renders as
    ["U" + name] and as the tuple [(name, "0")]: a passed undefine flag
    wins over any definition. *)
Theorem Macro_undefine_flag_wins (name : string) (definition : MaybeStr) :
  name <> "" ->
  exists macro,
    Macro.init (Some name) definition true = Ok macro /\
    Macro.to_string macro = Ok ("U" ++ name)%string /\
    Macro.to_tuple macro = Ok (name, "0") /\
    Macro.bool macro = false.
Proof.
  intros Hname.
  rewrite init_nonempty by exact Hname.
  eexists; split; [reflexivity|].
  rewrite to_string_eq, to_tuple_eq; unfold Macro.bool; simpl.
  rewrite orb_true_r. repeat split.
Qed.

Lemma Macro_undefine_flag_wins_witness :
  "DEBUG" <> "" /\
  exists macro,
    Macro.init (Some "DEBUG") (Some "2") true = Ok macro /\
    Macro.to_string macro = Ok ("U" ++ "DEBUG")%string /\
    Macro.to_tuple macro = Ok ("DEBUG", "0") /\
    Macro.bool macro = false.
Proof.
  split; [discriminate|].
  apply (Macro_undefine_flag_wins "DEBUG" (Some "2")); discriminate.
Defined.

(** X2: for every non-empty name and every definition v that parses
    neither as 0 nor as 1 (the empty string among them), [Macro(name, v)]
    is truthy and renders as ["D" + name + "=" + v]. *)
Theorem Macro_valued_switch (name v : string) :
  name <> "" ->
  Macro.is_string_value (Some v) 0 = false ->
  Macro.is_string_value (Some v) 1 = false ->
  exists macro,
    Macro.init (Some name) (Some v) false = Ok macro /\
    Macro.to_string macro = Ok ("D" ++ name ++ "=" ++ v)%string /\
    Macro.bool macro = true.
Proof.
  intros Hname H0 H1.
  rewrite init_nonempty by exact Hname.
  rewrite H0, H1; simpl.
  eexists; split; [reflexivity|].
  rewrite to_string_eq; split; reflexivity.
Qed.

Lemma Macro_valued_switch_witness :
  "VERSION" <> "" /\
  Macro.is_string_value (Some "1.2.3") 0 = false /\
  Macro.is_string_value (Some "1.2.3") 1 = false /\
  exists macro,
    Macro.init (Some "VERSION") (Some "1.2.3") false = Ok macro /\
    Macro.to_string macro = Ok ("D" ++ "VERSION" ++ "=" ++ "1.2.3")%string /\
    Macro.bool macro = true.
Proof.
  split; [discriminate|].
  split; [reflexivity|].
  split; [reflexivity|].
  apply (Macro_valued_switch "VERSION" "1.2.3");
    [discriminate | reflexivity | reflexivity].
Defined.

(** X3: for every non-empty name, [Macro(name)] and [Macro(name, "1")]
    both render as ["D" + name], and [Macro(name, "0")] renders as
    ["U" + name]: the sentinels never show up as a value in the switch. *)
Theorem Macro_bare_switch (name : string) :
  name <> "" ->
  (macro <- Macro.init (Some name) None false ;; Macro.to_string macro)
    = Ok ("D" ++ name)%string /\
  (macro <- Macro.init (Some name) (Some "1") false ;; Macro.to_string macro)
    = Ok ("D" ++ name)%string /\
  (macro <- Macro.init (Some name) (Some "0") false ;; Macro.to_string macro)
    = Ok ("U" ++ name)%string.
Proof.
  intros Hname.
  rewrite !init_nonempty by exact Hname.
  rewrite !isv_None, isv_one_0, isv_one_1, isv_zero_0, isv_zero_1; simpl.
  rewrite !to_string_eq. repeat split.
Qed.

Lemma Macro_bare_switch_witness :
  "NDEBUG" <> "" /\
  (macro <- Macro.init (Some "NDEBUG") None false ;; Macro.to_string macro)
    = Ok ("D" ++ "NDEBUG")%string /\
  (macro <- Macro.init (Some "NDEBUG") (Some "1") false ;;
   Macro.to_string macro) = Ok ("D" ++ "NDEBUG")%string /\
  (macro <- Macro.init (Some "NDEBUG") (Some "0") false ;;
   Macro.to_string macro) = Ok ("U" ++ "NDEBUG")%string.
Proof.
  split; [discriminate|].
  apply (Macro_bare_switch "NDEBUG"); discriminate.
Defined.

(** X4: for every Macro that the constructor returns, being falsey, having
    the tuple value ["0"] and rendering as ["U" + name] are the same thing. *)
Theorem Macro_falsey_iff_zero (name definition : MaybeStr) (undefine : bool)
        (macro : Macro.t) :
  Macro.init name definition undefine = Ok macro ->
  (Macro.bool macro = false <->
   Macro.to_tuple macro = Ok (Macro.name macro, "0")) /\
  (Macro.bool macro = false <->
   Macro.to_string macro = Ok ("U" ++ Macro.name macro)%string).
Proof.
  intros Hinit.
  destruct (init_inv _ _ _ _ Hinit) as (_ & _ & Hdef).
  rewrite to_tuple_eq, to_string_eq. unfold Macro.bool.
  destruct (Macro.undefine macro); simpl.
  - split; split; reflexivity.
  - destruct (Macro.definition macro) as [s|].
    + destruct Hdef as [H0 _].
      split; split; try discriminate.
      intros H; injection H as ->.
      rewrite isv_zero_0 in H0; discriminate.
    + split; split; discriminate.
Qed.

Lemma Macro_falsey_iff_zero_witness :
  Macro.init (Some "DEBUG") (Some " 0 ") false
    = Ok (Macro.Build "DEBUG" None true) /\
  (Macro.bool (Macro.Build "DEBUG" None true) = false <->
   Macro.to_tuple (Macro.Build "DEBUG" None true)
     = Ok (Macro.name (Macro.Build "DEBUG" None true), "0")) /\
  (Macro.bool (Macro.Build "DEBUG" None true) = false <->
   Macro.to_string (Macro.Build "DEBUG" None true)
     = Ok ("U" ++ Macro.name (Macro.Build "DEBUG" None true))%string).
Proof.
  split; [reflexivity|].
  apply (Macro_falsey_iff_zero (Some "DEBUG") (Some " 0 ") false).
  reflexivity.
Defined.

(** X5: whatever the constructor returns has the non-empty name that was
    passed; its definition is either cleared or the passed one unchanged,
    and a kept definition never parses as 0 or 1; a passed undefine flag is
    never turned off. *)
Theorem Macro_constructor_invariant (name definition : MaybeStr)
        (undefine : bool) (macro : Macro.t) :
  Macro.init name definition undefine = Ok macro ->
  name = Some (Macro.name macro) /\
  Macro.name macro <> "" /\
  (Macro.definition macro = None \/
   (Macro.definition macro = definition /\
    Macro.is_string_value definition 0 = false /\
    Macro.is_string_value definition 1 = false)) /\
  (undefine = true -> Macro.undefine macro = true).
Proof.
  destruct name as [nm|]; [|discriminate].
  destruct nm as [|c nm]; [discriminate|].
  rewrite init_nonempty by discriminate.
  intros H; injection H as <-; simpl.
  split; [reflexivity|].
  split; [discriminate|].
  split.
  - destruct (Macro.is_string_value definition 0);
      destruct (Macro.is_string_value definition 1); simpl; auto.
  - intros ->. apply orb_true_r.
Qed.

Lemma Macro_constructor_invariant_witness :
  Macro.init (Some "VERSION") (Some "1.2.3") true
    = Ok (Macro.Build "VERSION" (Some "1.2.3") true) /\
  Some "VERSION" = Some (Macro.name (Macro.Build "VERSION" (Some "1.2.3") true)) /\
  Macro.name (Macro.Build "VERSION" (Some "1.2.3") true) <> "" /\
  (Macro.definition (Macro.Build "VERSION" (Some "1.2.3") true) = None \/
   (Macro.definition (Macro.Build "VERSION" (Some "1.2.3") true)
      = Some "1.2.3" /\
    Macro.is_string_value (Some "1.2.3") 0 = false /\
    Macro.is_string_value (Some "1.2.3") 1 = false)) /\
  (true = true ->
   Macro.undefine (Macro.Build "VERSION" (Some "1.2.3") true) = true).
Proof.
  split; [reflexivity|].
  apply (Macro_constructor_invariant (Some "VERSION") (Some "1.2.3") true).
  reflexivity.
Defined.


(** ** [u8bytes], [u8str], [tuplize], [listify] *)



(** X9: on a [bytes] object whose first byte is in the range 0x80..0xC1,
    which no UTF-8 sequence starts with, [u8str] raises
    [UnicodeDecodeError]. *)
Theorem u8str_raises_on_bad_bytes (b : byte) (rest : list byte) :
  (128 <= Byte.to_N b <= 193)%N ->
  Dyn.u8str (Dyn.PyBytes (b :: rest)) = Raise UnicodeDecodeError.
Proof.
  intros [Hlo Hhi].
  unfold Dyn.u8str, Dyn.u8bytes.
  assert (E1 : (Byte.to_N b <? 128)%N = false) by (apply N.ltb_ge; exact Hlo).
  assert (E2 : (194 <=? Byte.to_N b)%N = false) by (apply N.leb_gt; lia).
  destruct rest as [|b2 rest]; cbn [Py.decode]; rewrite E1;
    [reflexivity | now rewrite E2].
Qed.

Lemma u8str_raises_on_bad_bytes_witness :
  (128 <= Byte.to_N xa9 <= 193)%N /\
  Dyn.u8str (Dyn.PyBytes [xa9; x20]) = Raise UnicodeDecodeError.
Proof.
  split; [vm_compute; split; discriminate|].
  apply (u8str_raises_on_bad_bytes xa9 [x20]).
  vm_compute; split; discriminate.
Defined.

(** X10: [tuplize] and [listify] return the same items: exactly the
    arguments that are not [None], in their order (the result of the
    concatenation of two argument lists is the concatenation of the
    results), and applying them to their own result changes nothing. *)
Theorem tuplize_keeps_not_None (items : list Dyn.value) :
  (forall x, In x (Dyn.tuplize items) <-> In x items /\ x <> Dyn.PyNone) /\
  (forall more, Dyn.tuplize (items ++ more)
                = Dyn.tuplize items ++ Dyn.tuplize more) /\
  Dyn.tuplize (Dyn.tuplize items) = Dyn.tuplize items /\
  Dyn.listify items = Dyn.tuplize items /\
  length (Dyn.tuplize items) <= length items.
Proof.
  unfold Dyn.tuplize, Dyn.listify.
  split.
  - intros x. rewrite filter_In.
    split; intros [Hin Hx]; split; try exact Hin.
    + intros ->; discriminate.
    + destruct x; simpl; congruence.
  - split; [intros more; apply filter_app|].
    split; [|split; [reflexivity | apply filter_length_le]].
    induction items as [|x items IH]; simpl; [reflexivity|].
    destruct (Dyn.is_not_None x) eqn:E; simpl; [rewrite E, IH|]; auto.
Qed.

(** ** class Macros *)

Lemma delete_leaves_absent (ops : list op) (name : string) (kw : kwargs) :
  Macros.contains (fst (Macros.delete (run ops Macros.empty) name kw)) name
    = false /\
  NoDup (keys (run ops Macros.empty)).
Proof.
  assert (Hnd : NoDup (keys (run ops Macros.empty))) by apply run_keys_nodup.
  split; [|exact Hnd].
  unfold Macros.delete.
  destruct (Macros.contains (run ops Macros.empty) name) eqn:E; simpl;
    [now apply contains_delitem_same | exact E].
Qed.

(** X11: on every collection built from [Macros()] by the operations,
    [delete(name)] returns whether the name was present, leaves the name
    absent, leaves every other name's value as it was, changes nothing when
    the name was absent, and a second [delete(name)] returns [False] and
    changes nothing. *)
Theorem delete_spec (ops : list op) (name : string) (kw kw' : kwargs) :
  let self := run ops Macros.empty in
  let self' := fst (Macros.delete self name kw) in
  snd (Macros.delete self name kw) = Macros.contains self name /\
  Macros.contains self' name = false /\
  (forall other, other <> name ->
     Macros.getitem self' other = Macros.getitem self other /\
     Macros.contains self' other = Macros.contains self other) /\
  (Macros.contains self name = false -> self' = self) /\
  Macros.delete self' name kw' = (self', false).
Proof.
  intros self self'.
  assert (Habs : Macros.contains self' name = false)
    by apply (delete_leaves_absent ops name kw).
  split; [unfold Macros.delete; now destruct (Macros.contains self name)|].
  split; [exact Habs|].
  split.
  - intros other Hne. subst self'. unfold Macros.delete.
    destruct (Macros.contains self name); simpl; [|split; reflexivity].
    split; [now apply getitem_delitem_other
           | now apply contains_delitem_other].
  - split.
    + intros E. subst self'. unfold Macros.delete. now rewrite E.
    + unfold Macros.delete at 1. now rewrite Habs.
Qed.

(** X12: with a non-empty name, on every collection built from [Macros()]
    by the operations, [definition_for(name)] after [delete(name)] and
    after [undefine(name)] both give the undefined Macro without definition:
    a deleted name and an undefined one cannot be told apart through
    [definition_for]. *)
Theorem deleted_reads_as_undefined (ops : list op) (name : string)
        (kw : kwargs) :
  name <> "" ->
  Macros.definition_for (fst (Macros.delete (run ops Macros.empty) name kw))
                        name
    = Ok (Macro.Build name None true) /\
  (r <- Macros.undefine (run ops Macros.empty) name kw ;;
   Macros.definition_for (fst r) name)
    = Ok (Macro.Build name None true).
Proof.
  intros Hname. split.
  - destruct (delete_leaves_absent ops name kw) as [Habs _].
    unfold Macros.definition_for. rewrite Habs; simpl.
    rewrite init_nonempty by exact Hname. now rewrite !isv_None.
  - change (Macros.undefine (run ops Macros.empty) name kw)
      with (Macros.define (run ops Macros.empty) name None true).
    rewrite define_nonempty by exact Hname; simpl.
    unfold Macros.definition_for.
    rewrite contains_setitem_same, getitem_setitem_same; simpl.
    rewrite init_nonempty by exact Hname.
    change (stored_value None true) with "0".
    now rewrite isv_zero_0, isv_zero_1.
Qed.

Lemma deleted_reads_as_undefined_witness :
  "A" <> "" /\
  Macros.definition_for
    (fst (Macros.delete (run [Define "A" (Some "x") false] Macros.empty)
                        "A" []))
    "A"
    = Ok (Macro.Build "A" None true) /\
  (r <- Macros.undefine (run [Define "A" (Some "x") false] Macros.empty)
                        "A" [] ;;
   Macros.definition_for (fst r) "A")
    = Ok (Macro.Build "A" None true).
Proof.
  split; [discriminate|].
  apply (deleted_reads_as_undefined [Define "A" (Some "x") false] "A" []).
  discriminate.
Defined.

(** X13: for every collection, every non-empty name and every definition
    but the empty string, the Macro that [definition_for(name)] rebuilds
    right after [define(name, definition, undefine=flag)] renders to the
    same tuple and the same switch as the Macro that [define] returned, and
    is truthy exactly when that one is. *)
Theorem define_then_definition_for (self : Macros.t) (name : string)
        (definition : MaybeStr) (undefine : bool) :
  name <> "" ->
  definition <> Some "" ->
  exists self' macro found,
    Macros.define self name definition undefine = Ok (self', macro) /\
    Macros.definition_for self' name = Ok found /\
    Macro.to_tuple found = Macro.to_tuple macro /\
    Macro.to_string found = Macro.to_string macro /\
    Macro.bool found = Macro.bool macro.
Proof.
  intros Hname Hdef.
  rewrite define_nonempty by exact Hname.
  assert (Hok : entry_ok (name, stored_value definition undefine))
    by (split; [exact Hname | apply stored_value_is_ok]).
  eexists; eexists; eexists.
  split; [reflexivity|].
  unfold Macros.definition_for.
  rewrite contains_setitem_same, getitem_setitem_same; simpl.
  split; [apply (entry_init _ _ Hok)|].
  rewrite !to_tuple_eq, !to_string_eq. unfold Macro.bool, stored_value; simpl.
  destruct (Macro.is_string_value definition 0) eqn:E0; simpl;
    [repeat split|].
  destruct undefine; simpl; [repeat split|].
  destruct (Macro.is_string_value definition 1) eqn:E1; simpl;
    [repeat split|].
  destruct definition as [s|]; [|repeat split].
  destruct (not_sentinel_neq _ E0 E1) as [N0 N1].
  apply String.eqb_neq in N0, N1.
  destruct s as [|c s]; [congruence|].
  cbn -[String.eqb]. rewrite N0, N1.
  repeat split.
Qed.

Lemma define_then_definition_for_witness :
  "VERSION" <> "" /\ Some "007" <> Some "" /\
  exists self' macro found,
    Macros.define [("VERSION", "0")] "VERSION" (Some "007") false
      = Ok (self', macro) /\
    Macros.definition_for self' "VERSION" = Ok found /\
    Macro.to_tuple found = Macro.to_tuple macro /\
    Macro.to_string found = Macro.to_string macro /\
    Macro.bool found = Macro.bool macro.
Proof.
  split; [discriminate|].
  split; [discriminate|].
  apply (define_then_definition_for [("VERSION", "0")] "VERSION"
                                    (Some "007") false); discriminate.
Defined.

(** X14: a successful [define(name, ...)] and a [delete(name)] leave what
    [definition_for] and [in] answer for every other name as it was. *)
Theorem other_names_untouched (self self' : Macros.t) (name other : string)
        (definition : MaybeStr) (undefine : bool) (macro : Macro.t)
        (kw : kwargs) :
  other <> name ->
  Macros.define self name definition undefine = Ok (self', macro) ->
  (Macros.definition_for self' other = Macros.definition_for self other /\
   Macros.contains self' other = Macros.contains self other) /\
  (Macros.definition_for (fst (Macros.delete self name kw)) other
     = Macros.definition_for self other /\
   Macros.contains (fst (Macros.delete self name kw)) other
     = Macros.contains self other).
Proof.
  intros Hne Hdef.
  destruct name as [|c name]; [discriminate Hdef|].
  rewrite define_nonempty in Hdef by discriminate.
  injection Hdef as <- _.
  unfold Macros.definition_for, Macros.delete.
  split.
  - now rewrite contains_setitem_other, getitem_setitem_other.
  - destruct (Macros.contains self (String c name)); simpl;
      [|split; reflexivity].
    now rewrite contains_delitem_other, getitem_delitem_other.
Qed.

Lemma other_names_untouched_witness :
  "B" <> "A" /\
  Macros.define [("B", "x")] "A" None false
    = Ok ([("B", "x"); ("A", "1")], Macro.Build "A" None false) /\
  (Macros.definition_for [("B", "x"); ("A", "1")] "B"
     = Macros.definition_for [("B", "x")] "B" /\
   Macros.contains [("B", "x"); ("A", "1")] "B"
     = Macros.contains [("B", "x")] "B") /\
  (Macros.definition_for (fst (Macros.delete [("B", "x")] "A" [])) "B"
     = Macros.definition_for [("B", "x")] "B" /\
   Macros.contains (fst (Macros.delete [("B", "x")] "A" [])) "B"
     = Macros.contains [("B", "x")] "B").
Proof.
  split; [discriminate|].
  split; [reflexivity|].
  apply (other_names_untouched [("B", "x")] [("B", "x"); ("A", "1")]
           "A" "B" None false (Macro.Build "A" None false) []);
    [discriminate | reflexivity].
Defined.



(** X16: on every collection built from [Macros()] by the operations,
    [to_list()] (and so [to_tuple()]) does not raise and returns exactly the
    stored pairs in their order: reading the values back through the
    constructor changes none of them. *)
Theorem to_list_is_items (ops : list op) :
  Macros.to_list (run ops Macros.empty) = Ok (Macros.items (run ops Macros.empty))
  /\ Macros.to_tuple (run ops Macros.empty) = Ok (run ops Macros.empty).
Proof.
  split; apply to_list_entries, run_entry_ok.
Qed.

(** X17: on every collection built from [Macros()] by the operations and
    for every token, [to_string()] does not raise: it is the token stripped
    on the left, followed by the trimmed join of the switches, where a
    stored ["0"] gives ["U" + name], a stored ["1"] gives ["D" + name] and any
    other value gives ["D" + name + "=" + value]; with the script's token
    the result starts with ["-"]. *)
Theorem to_string_of_built (ops : list op) :
  (forall token : string,
     Macros.to_string_with token (run ops Macros.empty) =
     Ok (Py.lstrip token ++
         Py.strip (Py.join token (map switch (run ops Macros.empty))))%string)
  /\
  exists rest : string,
    Macros.to_string (run ops Macros.empty) = Ok (String "-" rest).
Proof.
  split.
  - intros token. apply to_string_entries, run_entry_ok.
  - unfold Macros.to_string.
    rewrite to_string_entries by apply run_entry_ok.
    eexists; reflexivity.
Qed.

(** X18: with an empty name, [define], [undefine] and [definition_for]
    raise [ValueError] on every collection, whatever the other arguments
    and whether or not the empty string is a key. *)
Theorem empty_name_raises (self : Macros.t) (definition : MaybeStr)
        (undefine : bool) (kw : kwargs) :
  Macros.define self "" definition undefine = Raise ValueError /\
  Macros.undefine self "" kw = Raise ValueError /\
  Macros.definition_for self "" = Raise ValueError.
Proof.
  split; [reflexivity|].
  split; [reflexivity|].
  unfold Macros.definition_for.
  destruct (Macros.contains self "") eqn:E; simpl; [|reflexivity].
  destruct (contains_true_getitem self "" E) as (v & Hget & _).
  now rewrite Hget.
Qed.

(** X19: on every collection built from [Macros()] by the operations, for a
    name that is present, [definition_for(name)] succeeds and adding the
    Macro it returns leaves the collection exactly as it was. *)
Theorem add_definition_for_is_identity (ops : list op) (name : string) :
  Macros.contains (run ops Macros.empty) name = true ->
  exists macro,
    Macros.definition_for (run ops Macros.empty) name = Ok macro /\
    Macros.add (run ops Macros.empty) macro = (run ops Macros.empty, macro).
Proof.
  intros Hin.
  destruct (contains_true_getitem _ _ Hin) as (v & Hget & Hmem).
  assert (Hok : entry_ok (name, v)).
  { pose proof (run_entry_ok ops) as Hall.
    rewrite Forall_forall in Hall. exact (Hall _ Hmem). }
  unfold Macros.definition_for. rewrite Hin, Hget; simpl.
  pose proof (entry_init name v Hok) as Hinit.
  eexists; split; [exact Hinit|].
  rewrite (add_init _ name (Some v) false _ Hinit).
  rewrite (stored_value_fix v (proj2 Hok)).
  now rewrite (setitem_getitem_id _ _ _ Hget).
Qed.

Lemma add_definition_for_is_identity_witness :
  Macros.contains
    (run [Define "A" (Some "x") false; Undefine "B" []] Macros.empty) "B"
    = true /\
  exists macro,
    Macros.definition_for
      (run [Define "A" (Some "x") false; Undefine "B" []] Macros.empty) "B"
      = Ok macro /\
    Macros.add
      (run [Define "A" (Some "x") false; Undefine "B" []] Macros.empty) macro
      = (run [Define "A" (Some "x") false; Undefine "B" []] Macros.empty,
         macro).
Proof.
  split; [reflexivity|].
  apply (add_definition_for_is_identity
           [Define "A" (Some "x") false; Undefine "B" []] "B").
  reflexivity.
Defined.

(** ** The script's own collection *)

(** X20: whatever the version string, the [define_macros] list that the
    script hands to [Extension] has the five names in the order of the
    [define] calls; NDEBUG and NUMPY carry ["1"], the two API symbols their
    literal values, and VERSION carries ["0"] when the version parses as 0,
    ["1"] when it parses as 1 or is empty, and the version string itself
    otherwise. *)
Theorem define_macros_of_script (version : string) :
  define_macros version =
  Ok [("NDEBUG", "1");
      ("NUMPY", "1");
      ("VERSION",
       if Macro.is_string_value (Some version) 0 then "0"
       else if Macro.is_string_value (Some version) 1 || negb (Py.truthy version)
            then "1"
            else version);
      ("NPY_NO_DEPRECATED_API", "NPY_1_7_API_VERSION");
      ("PY_ARRAY_UNIQUE_SYMBOL", "YO_DOGG_I_HEARD_YOU_LIKE_UNIQUE_SYMBOLS")].
Proof.
  assert (Hv : stored_value (Some version) false =
               if Macro.is_string_value (Some version) 0 then "0"
               else if Macro.is_string_value (Some version) 1
                       || negb (Py.truthy version)
                    then "1" else version).
  { unfold stored_value.
    destruct (Macro.is_string_value (Some version) 0); simpl; [reflexivity|].
    destruct (Macro.is_string_value (Some version) 1); simpl; [reflexivity|].
    destruct version; reflexivity. }
  rewrite <- Hv.
  unfold define_macros, script_macros.
  rewrite (define_nonempty _ "NDEBUG") by discriminate; cbn [bind fst].
  rewrite (define_nonempty _ "NUMPY") by discriminate; cbn [bind fst].
  rewrite (define_nonempty _ "VERSION") by discriminate; cbn [bind fst].
  rewrite (define_nonempty _ "NPY_NO_DEPRECATED_API") by discriminate;
    cbn [bind fst].
  rewrite (define_nonempty _ "PY_ARRAY_UNIQUE_SYMBOL") by discriminate;
    cbn [bind fst].
  change (stored_value None false) with "1".
  change (stored_value (Some "NPY_1_7_API_VERSION") false)
    with "NPY_1_7_API_VERSION".
  change (stored_value (Some "YO_DOGG_I_HEARD_YOU_LIKE_UNIQUE_SYMBOLS") false)
    with "YO_DOGG_I_HEARD_YOU_LIKE_UNIQUE_SYMBOLS".
  cbn [Macros.setitem Macros.empty String.eqb Ascii.eqb Bool.eqb].
  apply to_list_entries.
  assert (H1 : stored_value_ok "1") by (split; [discriminate | right; now left]).
  assert (Hlit : forall v, v <> "" ->
            Macro.is_string_value (Some v) 0 = false ->
            Macro.is_string_value (Some v) 1 = false -> stored_value_ok v)
    by (intros v Hne H0 H1'; split; [exact Hne | right; right; now split]).
  repeat (apply Forall_cons; [split; [discriminate | cbn [snd]]|]);
    [exact H1 | exact H1 | apply stored_value_is_ok
     | apply Hlit; [discriminate | reflexivity | reflexivity]
     | apply Hlit; [discriminate | reflexivity | reflexivity]
     | apply Forall_nil].
Qed.
